(** * Taxora savings planner: the projection engine

    A shallow embedding of [calculate_savings_projection], the one
    function with logic of its own in the Savings Planner page (under
    [pages/]), and the properties of the projection it returns.  The
    second part of the file covers the code around it: the panel that
    shows a projection, the progress cards and the submission of a goal.

    Numbers.  Python integers are [Z].  Amounts (target, contribution and
    everything derived from them) are exact rationals [Q]: the development
    reasons in exact arithmetic and says nothing about the rounding of
    binary floating point.  Equality of amounts is [Qeq], written [==].
    Integer amounts, which is what the form of the page delivers, are
    rationals; on them the sums, differences and products of the code
    are exact, its quotients are not.  Module [Binary64] has the same
    function on floating-point amounts, to run it where rounding makes a
    difference.

    Errors.  Python's true division raises [ZeroDivisionError] on a zero
    divisor.  The embedding keeps that failure: computations live in the
    error monad [Py.exc], and every theorem that says the function returns
    a result proves that the result is [Py.Ret]. *)

From Stdlib Require Import String ZArith QArith Qminmax List Bool Lia Lqa.
From Stdlib Require PrimFloat Uint63.
Import ListNotations.

Local Open Scope Z_scope.
Local Open Scope Q_scope.

(** ** The fragment of Python the function uses *)

Module Py.

(** The exceptions the page can raise: a division by zero, and the
    error of Streamlit's progress bar for a value out of its range. *)
Inductive exn : Set := ZeroDivisionError | StreamlitValueOutOfRangeError.

Inductive exc (A : Type) : Type :=
| Ret (a : A)
| Raise (e : exn).

Arguments Ret {A} a.
Arguments Raise {A} e.

Definition bind {A B : Type} (c : exc A) (k : A -> exc B) : exc B :=
  match c with
  | Ret a => k a
  | Raise e => Raise e
  end.

(** [a / b] on numbers: true division, an error on a zero divisor.
    The quotient is the exact one; Python rounds it to binary64. *)
Definition truediv (a b : Q) : exc Q :=
  if Qeq_bool b 0 then Raise ZeroDivisionError else Ret (a / b).

(** [a > b] on numbers. *)
Definition gt (a b : Q) : bool :=
  match a ?= b with
  | Gt => true
  | _ => false
  end.

(** [max(a, b)]: the first argument is kept unless the second is
    strictly greater. *)
Definition max (a b : Q) : Q := if gt b a then b else a.

(** [min(a, b)]: the first argument is kept unless the second is
    strictly smaller. *)
Definition min (a b : Q) : Q := if gt a b then b else a.

(** [range(n)]: the integers [0, 1, ..., n - 1], empty when [n <= 0]. *)
Definition range (n : Z) : list Z := map Z.of_nat (seq 0 (Z.to_nat n)).

End Py.

Notation "x <- c ;; k" := (Py.bind c (fun x => k))
  (at level 61, c at next level, right associativity).

(** ** [datetime.date] *)

Module datetime.

Record date : Set := mkdate { year : Z; month : Z; day : Z }.

Definition is_leap (y : Z) : bool :=
  ((y mod 4 =? 0) && (negb (y mod 100 =? 0) || (y mod 400 =? 0)))%Z.

Definition days_in_month (y m : Z) : Z :=
  (if m =? 2 then (if is_leap y then 29 else 28)
   else if (m =? 4) || (m =? 6) || (m =? 9) || (m =? 11) then 30
   else 31)%Z.

(** The check of the [date] constructor: every [date] object that
    exists satisfies it. *)
Definition valid (d : date) : bool :=
  ((1 <=? year d) && (year d <=? 9999)
   && (1 <=? month d) && (month d <=? 12)
   && (1 <=? day d) && (day d <=? days_in_month (year d) (month d)))%Z.

(** [d1 <= d2]: dates compare as the triples (year, month, day). *)
Definition le (d1 d2 : date) : bool :=
  ((year d1 <? year d2)
   || ((year d1 =? year d2)
       && ((month d1 <? month d2)
           || ((month d1 =? month d2) && (day d1 <=? day d2)))))%Z.

End datetime.

Import datetime.

(** ** The result of a projection *)

(** One element of the ['projection'] list. *)
Record ProjectionEntry : Set := mkEntry {
  month : Z;
  amount : Q;
  target_line : Q
}.

(** The dictionary [calculate_savings_projection] returns. *)
Record Projection : Set := mkProjection {
  months_to_target : Z;
  total_saved : Q;
  shortfall : Q;
  required_monthly : Q;
  projection : list ProjectionEntry;
  success_rate : Q
}.

(** ** [calculate_savings_projection] *)

Section Loop.

Variables target_amount monthly_saving : Q.
Variable months_to_target : Z.

(** The value of ['target_line'] at one month. *)
Definition target_line_at (month : Z) : Py.exc Q :=
  if (months_to_target >? 0)%Z
  then q <- Py.truediv target_amount (inject_Z months_to_target) ;;
       Py.Ret (q * inject_Z month)
  else Py.Ret 0.

(** The [for month in range(...)] loop.  Its state is the list built so
    far and [current_amount]; one iteration appends an entry and then
    adds the contribution. *)
Fixpoint projection_loop (months : list Z)
    (projection : list ProjectionEntry) (current_amount : Q)
    : Py.exc (list ProjectionEntry) :=
  match months with
  | [] => Py.Ret projection
  | month :: months' =>
      tl <- target_line_at month ;;
      projection_loop months'
        (projection ++ [ {| month := month;
                            amount := current_amount;
                            target_line := tl |} ])
        (current_amount + monthly_saving)
  end.

End Loop.

Definition calculate_savings_projection
    (target_amount monthly_saving : Q) (start_date target_date : date)
    : Py.exc Projection :=
  let months_to_target :=
    ((year target_date - year start_date) * 12
     + (datetime.month target_date - datetime.month start_date))%Z in
  let months_to_target :=
    if (months_to_target <=? 0)%Z then 1%Z else months_to_target in
  let total_saved := monthly_saving * inject_Z months_to_target in
  let shortfall := Py.max 0 (target_amount - total_saved) in
  required_monthly <-
    (if (months_to_target >? 0)%Z
     then Py.truediv target_amount (inject_Z months_to_target)
     else Py.Ret 0) ;;
  projection <-
    projection_loop target_amount monthly_saving months_to_target
      (Py.range (months_to_target + 1)) [] 0 ;;
  success_rate <-
    (if Py.gt target_amount 0
     then q <- Py.truediv total_saved target_amount ;;
          Py.Ret (Py.min 100 (q * 100))
     else Py.Ret 0) ;;
  Py.Ret {| months_to_target := months_to_target;
            total_saved := total_saved;
            shortfall := shortfall;
            required_monthly := required_monthly;
            projection := projection;
            success_rate := success_rate |}.

(** ** The same function on binary64 amounts

    When the amounts are Python floats every operation on them rounds.
    This is [calculate_savings_projection] once more, line for line,
    with the amounts in binary64 and Rocq's primitive floating-point
    operations, which round as Python's do.  An integer that meets a
    float ([months_to_target], [month], the literals [0] and [100]) is
    converted first, as Python converts it. *)

Module Binary64.

(** [float(z)], for an integer below [2^63] in absolute value; the
    integers converted here are month counts and small literals. *)
Definition of_int (z : Z) : PrimFloat.float :=
  if (z <? 0)%Z
  then PrimFloat.opp (PrimFloat.of_uint63 (Uint63.of_Z (- z)))
  else PrimFloat.of_uint63 (Uint63.of_Z z).

(** [a / b]: an error when the divisor is zero, of either sign. *)
Definition truediv (a b : PrimFloat.float) : Py.exc PrimFloat.float :=
  if PrimFloat.eqb b (of_int 0)
  then Py.Raise Py.ZeroDivisionError
  else Py.Ret (PrimFloat.div a b).

(** [a > b]. *)
Definition gt (a b : PrimFloat.float) : bool := PrimFloat.ltb b a.

Definition max (a b : PrimFloat.float) : PrimFloat.float :=
  if gt b a then b else a.

Definition min (a b : PrimFloat.float) : PrimFloat.float :=
  if gt a b then b else a.

Record ProjectionEntry : Set := mkEntry {
  month : Z;
  amount : PrimFloat.float;
  target_line : PrimFloat.float
}.

Record Projection : Set := mkProjection {
  months_to_target : Z;
  total_saved : PrimFloat.float;
  shortfall : PrimFloat.float;
  required_monthly : PrimFloat.float;
  projection : list ProjectionEntry;
  success_rate : PrimFloat.float
}.

Section Loop.

Variables target_amount monthly_saving : PrimFloat.float.
Variable months_to_target : Z.

Definition target_line_at (month : Z) : Py.exc PrimFloat.float :=
  if (months_to_target >? 0)%Z
  then q <- truediv target_amount (of_int months_to_target) ;;
       Py.Ret (PrimFloat.mul q (of_int month))
  else Py.Ret (of_int 0).

Fixpoint projection_loop (months : list Z)
    (projection : list ProjectionEntry) (current_amount : PrimFloat.float)
    : Py.exc (list ProjectionEntry) :=
  match months with
  | [] => Py.Ret projection
  | month :: months' =>
      tl <- target_line_at month ;;
      projection_loop months'
        (projection ++ [ {| month := month;
                            amount := current_amount;
                            target_line := tl |} ])
        (PrimFloat.add current_amount monthly_saving)
  end.

End Loop.

Definition calculate_savings_projection
    (target_amount monthly_saving : PrimFloat.float) (start_date target_date : date)
    : Py.exc Projection :=
  let months_to_target :=
    ((year target_date - year start_date) * 12
     + (datetime.month target_date - datetime.month start_date))%Z in
  let months_to_target :=
    if (months_to_target <=? 0)%Z then 1%Z else months_to_target in
  let total_saved :=
    PrimFloat.mul monthly_saving (of_int months_to_target) in
  let shortfall :=
    max (of_int 0) (PrimFloat.sub target_amount total_saved) in
  required_monthly <-
    (if (months_to_target >? 0)%Z
     then truediv target_amount (of_int months_to_target)
     else Py.Ret (of_int 0)) ;;
  projection <-
    projection_loop target_amount monthly_saving months_to_target
      (Py.range (months_to_target + 1)) [] (of_int 0) ;;
  success_rate <-
    (if gt target_amount (of_int 0)
     then q <- truediv total_saved target_amount ;;
          Py.Ret (min (of_int 100) (PrimFloat.mul q (of_int 100)))
     else Py.Ret (of_int 0)) ;;
  Py.Ret {| months_to_target := months_to_target;
            total_saved := total_saved;
            shortfall := shortfall;
            required_monthly := required_monthly;
            projection := projection;
            success_rate := success_rate |}.

End Binary64.

(** ** Definitions used to state the properties *)

(** The number of periods the function settles on: the whole-month
    difference of the two dates, or [1] when that is not positive. *)
Definition periods (start_date target_date : date) : Z :=
  let d := ((year target_date - year start_date) * 12
            + (datetime.month target_date - datetime.month start_date))%Z in
  if (d <=? 0)%Z then 1%Z else d.

(** [current_amount] after [i] iterations of the loop, started at [c]. *)
Definition saved_after (monthly_saving c : Q) (i : nat) : Q :=
  Nat.iter i (fun x => x + monthly_saving) c.

Section Timeline.

Variables target_amount monthly_saving : Q.
Variable months_to_target : Z.

(** What the loop appends for the months it is given, in closed form
    (no error branch: the divisor is known to be positive). *)
Fixpoint timeline (months : list Z) (current_amount : Q)
    : list ProjectionEntry :=
  match months with
  | [] => []
  | month :: months' =>
      {| month := month;
         amount := current_amount;
         target_line :=
           target_amount / inject_Z months_to_target * inject_Z month |}
      :: timeline months' (current_amount + monthly_saving)
  end.

End Timeline.

(** A result read as plain values, amounts in lowest terms. *)
Definition summary (r : Py.exc Projection) : option (Z * Q * Q * Q * Q) :=
  match r with
  | Py.Ret p =>
      Some (months_to_target p, Qred (total_saved p), Qred (shortfall p),
            Qred (success_rate p), Qred (required_monthly p))
  | Py.Raise _ => None
  end.

(** ** The projection panel of the "Create Goal" tab

    The form calls [calculate_savings_projection] when both amounts are
    positive and hands the result to four metrics and a chart.  The
    embedding keeps the values handed over and the choice of the fourth
    metric's label; the formatting of numbers as text and the drawing
    are the widgets' and are not modelled.  [date.today()] is the
    parameter [today]. *)

Module Page.

(** The label of the fourth metric. *)
Inductive ShortfallLabel : Set := Shortfall | Surplus.

Record Panel : Set := mkPanel {
  months_metric : Z;
  total_saved_metric : Q;
  success_rate_metric : Q;
  shortfall_label : ShortfallLabel;
  shortfall_metric : Q;
  (** the trace 'Your Savings': [x=df['month'], y=df['amount']] *)
  savings_trace : list (Z * Q);
  (** the trace 'Target Amount': [x=df['month'], y=[target_amount]*len(df)] *)
  target_trace : list (Z * Q)
}.

(** The block under [# Calculate projection].  [None]: nothing is shown.
    [p] is the dictionary the source names [projection]; the test
    [if projection:] is on a dictionary of six keys, which is never
    empty, so it always passes. *)
Definition projection_panel
    (target_amount monthly_saving_target : Q) (today target_date : date)
    : Py.exc (option Panel) :=
  if Py.gt target_amount 0 && Py.gt monthly_saving_target 0
  then
    p <-
      calculate_savings_projection target_amount monthly_saving_target
        today target_date ;;
    let df := projection p in
    Py.Ret (Some
      {| months_metric := months_to_target p;
         total_saved_metric := total_saved p;
         success_rate_metric := success_rate p;
         shortfall_label :=
           if Py.gt (shortfall p) 0 then Shortfall else Surplus;
         shortfall_metric := shortfall p;
         savings_trace := combine (map month df) (map amount df);
         target_trace :=
           combine (map month df)
                   (repeat target_amount (List.length df)) |})
  else Py.Ret None.

End Page.

(** ** The "Track Progress" tab

    The loop over [sample_goals] computes three numbers for each goal
    and picks a caption and a box.  The embedding keeps those and the
    one widget call that can fail, the progress bar, which rejects a
    value outside its range; the other widget calls only display. *)

Module Track.

(** One dictionary of [sample_goals]. *)
Record Goal : Set := mkGoal {
  name : string;
  target : Z;
  current : Z;
  monthly : Z;
  status : string
}.

Definition sample_goals : list Goal :=
  [ mkGoal "Emergency Fund" 150000 150000 15000 "Completed";
    mkGoal "Vacation Fund" 80000 60000 8000 "In Progress";
    mkGoal "House Down Payment" 500000 225000 25000 "In Progress";
    mkGoal "New Car" 300000 45000 12000 "In Progress" ].

(** The caption under the second column. *)
Inductive Caption : Set :=
| MonthsLeft (months_left : Q)
| GoalAchieved.

(** The box in the third column. *)
Inductive Badge : Set := Completed | InProgress.

(** What one iteration of the loop hands to the widgets. *)
Record Card : Set := mkCard {
  progress : Q;
  remaining : Z;
  months_left : Q;
  caption : Caption;
  badge : Badge
}.

(** [col1.progress(value)] for the float a division gives: the value
    is accepted when [0.0 <= value <= 1.0] and is an error outside. *)
Definition st_progress (value : Q) : Py.exc unit :=
  if Qle_bool 0 value && Qle_bool value 1
  then Py.Ret tt
  else Py.Raise Py.StreamlitValueOutOfRangeError.

(** The body of [for goal in sample_goals]. *)
Definition goal_card (goal : Goal) : Py.exc Card :=
  progress <- Py.truediv (inject_Z (current goal)) (inject_Z (target goal)) ;;
  _ <- st_progress progress ;;
  let remaining := (target goal - current goal)%Z in
  months_left <-
    (if (monthly goal >? 0)%Z && (remaining >? 0)%Z
     then Py.truediv (inject_Z remaining) (inject_Z (monthly goal))
     else Py.Ret 0) ;;
  Py.Ret {| progress := progress;
            remaining := remaining;
            months_left := months_left;
            caption :=
              if Py.gt months_left 0
              then MonthsLeft months_left else GoalAchieved;
            badge :=
              if String.eqb (status goal) "Completed"
              then Completed else InProgress |}.

(** A goal the body of the loop gets past: its target is not zero and
    its progress is within what the progress bar accepts. *)
Definition displayable (goal : Goal) : bool :=
  negb (target goal =? 0)%Z
  && Qle_bool 0 (inject_Z (current goal) / inject_Z (target goal))
  && Qle_bool (inject_Z (current goal) / inject_Z (target goal)) 1.


(** The loop: cards in the order of the goals; the first error ends it. *)
Fixpoint track_progress (goals : list Goal) : Py.exc (list Card) :=
  match goals with
  | [] => Py.Ret []
  | goal :: goals' =>
      card <- goal_card goal ;;
      cards <- track_progress goals' ;;
      Py.Ret (card :: cards)
  end.

End Track.

(** ** Submitting a goal

    [create_savings_goal] posts the goal to the backend.  The network is
    a parameter: [post url body timeout] is what [requests.post] does,
    either an exception or a response with a status code and a body
    that may or may not decode as JSON. *)

Module Submit.

(** The values [response.json()] can return.  Python's [None] is
    [JNull].  No induction over values is needed, so no scheme is
    generated for this nested type. *)
#[local] Unset Elimination Schemes.
Inductive json : Set :=
| JNull
| JBool (b : bool)
| JNum (q : Q)
| JStr (s : string)
| JList (items : list json)
| JDict (items : list (string * json)).
#[local] Set Elimination Schemes.

(** A value used as a condition. *)
Definition truthy (v : json) : bool :=
  match v with
  | JNull => false
  | JBool b => b
  | JNum q => negb (Qeq_bool q 0)
  | JStr s => negb (String.eqb s "")
  | JList items => match items with [] => false | _ => true end
  | JDict items => match items with [] => false | _ => true end
  end.

Inductive exn : Set :=
| RequestException
| JSONDecodeError
| AttributeError.

Inductive outcome (A : Type) : Type :=
| Returns (a : A)
| Raises (e : exn).

Arguments Returns {A} a.
Arguments Raises {A} e.

Definition bind {A B : Type} (c : outcome A) (k : A -> outcome B)
    : outcome B :=
  match c with
  | Returns a => k a
  | Raises e => Raises e
  end.

(** [try: c  except: handler], the bare [except] that catches all. *)
Definition try_except {A : Type} (c : outcome A) (handler : outcome A)
    : outcome A :=
  match c with
  | Returns a => Returns a
  | Raises _ => handler
  end.

(** A response: its status code and, when the body decodes, its
    value. *)
Record Response : Set := mkResponse {
  status_code : Z;
  body : option json
}.

(** [response.json()]. *)
Definition response_json (response : Response) : outcome json :=
  match body response with
  | Some v => Returns v
  | None => Raises JSONDecodeError
  end.

(** [d.get(key)] on a dictionary: the value, or [None]. *)
Fixpoint dict_get (items : list (string * json)) (key : string) : json :=
  match items with
  | [] => JNull
  | (k, v) :: items' => if String.eqb k key then v else dict_get items' key
  end.

(** [v.get(key)]: only dictionaries have the method. *)
Definition get (v : json) (key : string) : outcome json :=
  match v with
  | JDict items => Returns (dict_get items key)
  | _ => Raises AttributeError
  end.

Definition API_BASE_URL : string := "http://127.0.0.1:8000".

(** The message shown after a submission. *)
Inductive Feedback : Set := GoalCreated | GoalFailed.

Section Network.

Variable post : string -> json -> Z -> outcome Response.

Definition create_savings_goal (goal_data : json) : outcome json :=
  try_except
    (bind (post (API_BASE_URL ++ "/savings/goal") goal_data 30)
       (fun response =>
          if (status_code response =? 200)%Z
          then response_json response
          else Returns JNull))
    (Returns JNull).

(** The two lines after the spinner: [result and result.get('success')]
    decides between the success and the error message. *)
Definition submit_feedback (goal_data : json) : outcome Feedback :=
  bind (create_savings_goal goal_data) (fun result =>
    bind (if truthy result then get result "success" else Returns result)
      (fun ok =>
         Returns (if truthy ok then GoalCreated else GoalFailed))).

End Network.

End Submit.

(** ** The concrete scenarios of the specification *)

Example scenario_1 :
  summary (calculate_savings_projection 100000 10000
             (mkdate 2024 1 1) (mkdate 2024 11 1))
  = Some (10%Z, 100000, 0, 100, 10000).
Proof. reflexivity. Qed.

Example scenario_2 :
  summary (calculate_savings_projection 150000 8000
             (mkdate 2024 1 1) (mkdate 2024 7 1))
  = Some (6%Z, 48000, 102000, 32, 25000).
Proof. reflexivity. Qed.

Example scenario_3 :
  summary (calculate_savings_projection 50000 5000
             (mkdate 2024 6 1) (mkdate 2024 1 1))
  = Some (1%Z, 5000, 45000, 10, 50000).
Proof. reflexivity. Qed.

Example scenario_4 :
  summary (calculate_savings_projection 0 1000
             (mkdate 2024 1 1) (mkdate 2024 4 1))
  = Some (3%Z, 3000, 0, 0, 0).
Proof. reflexivity. Qed.

(** The second scenario on binary64 amounts: the same figures. *)
Example binary64_scenario_2 :
  exists r,
    Binary64.calculate_savings_projection
      (Binary64.of_int 150000) (Binary64.of_int 8000)
      (mkdate 2024 1 1) (mkdate 2024 7 1) = Py.Ret r
    /\ Binary64.months_to_target r = 6%Z
    /\ Binary64.total_saved r = Binary64.of_int 48000
    /\ Binary64.shortfall r = Binary64.of_int 102000
    /\ Binary64.success_rate r = Binary64.of_int 32
    /\ Binary64.required_monthly r = Binary64.of_int 25000.
Proof.
  eexists. split; [vm_compute; reflexivity |].
  repeat split; vm_compute; reflexivity.
Qed.

(** ** Python's comparisons, [max] and [min] *)

Lemma gt_true_iff a b : Py.gt a b = true <-> b < a.
Proof.
  unfold Py.gt. rewrite Qlt_alt, <- (Qcompare_antisym a b).
  destruct (a ?= b); simpl; split; intros H; (reflexivity || discriminate H).
Qed.

Lemma gt_false_iff a b : Py.gt a b = false <-> a <= b.
Proof.
  unfold Py.gt. rewrite Qle_alt.
  destruct (a ?= b); split; intros H;
    try reflexivity; try discriminate H; try (now elim H).
Qed.

Lemma py_max_Qmax a b : Py.max a b = Qmax a b.
Proof.
  unfold Py.max, Py.gt, Qmax, GenericMinMax.gmax.
  rewrite <- (Qcompare_antisym a b). now destruct (a ?= b).
Qed.

Lemma py_min_Qmin a b : Py.min a b = Qmin a b.
Proof.
  unfold Py.min, Py.gt, Qmin, GenericMinMax.gmin.
  now destruct (a ?= b).
Qed.

Lemma py_max_spec a b :
  (a < b /\ Py.max a b = b) \/ (b <= a /\ Py.max a b = a).
Proof.
  unfold Py.max. destruct (Py.gt b a) eqn:E.
  - left. split; [now apply gt_true_iff | reflexivity].
  - right. split; [now apply gt_false_iff | reflexivity].
Qed.

Lemma py_min_spec a b :
  (b < a /\ Py.min a b = b) \/ (a <= b /\ Py.min a b = a).
Proof.
  unfold Py.min. destruct (Py.gt a b) eqn:E.
  - left. split; [now apply gt_true_iff | reflexivity].
  - right. split; [now apply gt_false_iff | reflexivity].
Qed.

(** ** Division *)

Lemma truediv_ok a b : ~ b == 0 -> Py.truediv a b = Py.Ret (a / b).
Proof.
  intros Hb. unfold Py.truediv.
  destruct (Qeq_bool b 0) eqn:E; [| reflexivity].
  apply Qeq_bool_eq in E. contradiction.
Qed.

Lemma inject_Z_pos (m : Z) : (0 < m)%Z -> 0 < inject_Z m.
Proof. intros H. unfold Qlt. simpl. lia. Qed.

Lemma inject_Z_nonzero (m : Z) : (0 < m)%Z -> ~ inject_Z m == 0.
Proof. intros H E. apply inject_Z_pos in H. rewrite E in H. lra. Qed.

(** ** The period count *)

Lemma periods_pos s t : (0 < periods s t)%Z.
Proof.
  unfold periods. cbv zeta.
  destruct (Z.leb_spec
    ((year t - year s) * 12 + (datetime.month t - datetime.month s)) 0); lia.
Qed.

(** ** The loop *)

Lemma saved_after_shift ms c i :
  saved_after ms (c + ms) i = saved_after ms c (S i).
Proof. unfold saved_after. now rewrite Nat.iter_succ_r. Qed.

Section LoopFacts.

Variables target_amount monthly_saving : Q.
Variable months_to_target : Z.
Hypothesis months_pos : (0 < months_to_target)%Z.

Let loop := projection_loop target_amount monthly_saving months_to_target.
Let tline := timeline target_amount monthly_saving months_to_target.

Lemma target_line_at_ok i :
  target_line_at target_amount months_to_target i
  = Py.Ret (target_amount / inject_Z months_to_target * inject_Z i).
Proof.
  unfold target_line_at.
  destruct (Z.gtb_spec months_to_target 0); [| lia].
  rewrite truediv_ok by now apply inject_Z_nonzero.
  reflexivity.
Qed.

(** The loop never fails, and extends the list it was given by the
    closed form. *)
Lemma projection_loop_timeline months :
  forall acc cur, loop months acc cur = Py.Ret (acc ++ tline months cur).
Proof.
  subst loop tline.
  induction months as [| i months IH]; intros acc cur; simpl.
  - now rewrite app_nil_r.
  - rewrite target_line_at_ok. simpl.
    rewrite IH, <- app_assoc. reflexivity.
Qed.

Lemma timeline_length months :
  forall cur, length (tline months cur) = length months.
Proof.
  subst tline.
  induction months as [| i months IH]; intros cur; simpl; [reflexivity |].
  now rewrite IH.
Qed.

(** Entry [i] of the timeline of [a, a+1, ..., a+n-1]. *)
Lemma timeline_nth n :
  forall a cur i, (i < n)%nat ->
    nth_error (tline (map Z.of_nat (seq a n)) cur) i
    = Some {| month := Z.of_nat (a + i);
              amount := saved_after monthly_saving cur i;
              target_line :=
                target_amount / inject_Z months_to_target
                * inject_Z (Z.of_nat (a + i)) |}.
Proof.
  subst tline.
  induction n as [| n IH]; intros a cur i Hi; [lia |].
  change (seq a (S n)) with (a :: seq (S a) n).
  destruct i as [| i]; cbn [map timeline nth_error].
  - now rewrite Nat.add_0_r.
  - rewrite IH by lia.
    now rewrite saved_after_shift, Nat.add_succ_r.
Qed.

End LoopFacts.

Lemma saved_after_closed ms c i :
  saved_after ms c i == c + ms * inject_Z (Z.of_nat i).
Proof.
  unfold saved_after.
  induction i as [| i IH].
  - simpl. ring.
  - rewrite Nat2Z.inj_succ. unfold Z.succ. rewrite inject_Z_plus.
    simpl Nat.iter. rewrite IH. ring.
Qed.

Lemma range_length n : length (Py.range n) = Z.to_nat n.
Proof. unfold Py.range. now rewrite length_map, length_seq. Qed.

(** ** The function in closed form *)

(** The function returns for every input, and this is what it returns. *)
Lemma calculate_savings_projection_eq ta ms s t :
  calculate_savings_projection ta ms s t
  = Py.Ret
      {| months_to_target := periods s t;
         total_saved := ms * inject_Z (periods s t);
         shortfall := Py.max 0 (ta - ms * inject_Z (periods s t));
         required_monthly := ta / inject_Z (periods s t);
         projection :=
           timeline ta ms (periods s t) (Py.range (periods s t + 1)) 0;
         success_rate :=
           if Py.gt ta 0
           then Py.min 100 (ms * inject_Z (periods s t) / ta * 100)
           else 0 |}.
Proof.
  unfold calculate_savings_projection. cbv zeta.
  fold (periods s t).
  pose proof (periods_pos s t) as Hpos.
  destruct (Z.gtb_spec (periods s t) 0); [| lia].
  rewrite truediv_ok by now apply inject_Z_nonzero.
  simpl Py.bind.
  rewrite projection_loop_timeline by assumption.
  simpl Py.bind.
  destruct (Py.gt ta 0) eqn:Hta; [| reflexivity].
  apply gt_true_iff in Hta.
  rewrite truediv_ok by lra.
  reflexivity.
Qed.

(** ** Reading the timeline of a result *)

(** The entry at a valid index of the timeline the function builds. *)
Lemma projection_nth ta ms m i :
  (0 < m)%Z -> (i <= Z.to_nat m)%nat ->
  nth_error (timeline ta ms m (Py.range (m + 1)) 0) i
  = Some {| month := Z.of_nat i;
            amount := saved_after ms 0 i;
            target_line := ta / inject_Z m * inject_Z (Z.of_nat i) |}.
Proof.
  intros Hm Hi. unfold Py.range.
  rewrite timeline_nth by lia. reflexivity.
Qed.

Lemma projection_length ta ms m :
  (0 < m)%Z ->
  length (timeline ta ms m (Py.range (m + 1)) 0) = S (Z.to_nat m).
Proof.
  intros Hm. rewrite timeline_length, range_length. lia.
Qed.

(** ** The claims *)

(** C1.  For every goal the function returns, and the [months_to_target]
    it returns is the whole-month difference
    [(target year - start year) * 12 + (target month - start month)] when
    that difference is positive and [1] when it is zero or negative.  The
    day-of-month of either date has no effect: changing both days leaves
    the whole result unchanged. *)
Theorem C1_months_to_target ta ms s t :
  exists r,
    calculate_savings_projection ta ms s t = Py.Ret r
    /\ ((0 < (year t - year s) * 12
             + (datetime.month t - datetime.month s)
         /\ months_to_target r
            = (year t - year s) * 12
              + (datetime.month t - datetime.month s))%Z
        \/ ((year t - year s) * 12
            + (datetime.month t - datetime.month s) <= 0
            /\ months_to_target r = 1)%Z)
    /\ (forall d d' : Z,
          calculate_savings_projection ta ms
            (mkdate (year s) (datetime.month s) d)
            (mkdate (year t) (datetime.month t) d')
          = Py.Ret r).
Proof.
  eexists. split; [apply calculate_savings_projection_eq |]. split.
  - cbn [months_to_target]. unfold periods. cbv zeta.
    destruct (Z.leb_spec
      ((year t - year s) * 12
       + (datetime.month t - datetime.month s)) 0) as [H | H].
    + right. split; [exact H | reflexivity].
    + left. split; [exact H | reflexivity].
  - intros d d'. rewrite calculate_savings_projection_eq. reflexivity.
Qed.

(** C2.  The ['projection'] list has exactly [months_to_target + 1]
    entries; entry [i] carries month index [i], for [i] from [0] to
    [months_to_target] in order; the cumulative amount of entry [0] is
    [0], and the cumulative amount of every later entry is that of the
    entry before it plus the monthly contribution. *)
Theorem C2_timeline_shape ta ms s t :
  exists r,
    calculate_savings_projection ta ms s t = Py.Ret r
    /\ (1 <= months_to_target r)%Z
    /\ length (projection r) = S (Z.to_nat (months_to_target r))
    /\ (forall i, (i <= Z.to_nat (months_to_target r))%nat ->
          exists e, nth_error (projection r) i = Some e
                    /\ month e = Z.of_nat i)
    /\ (exists e0, nth_error (projection r) 0 = Some e0 /\ amount e0 == 0)
    /\ (forall i, (1 <= i <= Z.to_nat (months_to_target r))%nat ->
          exists e' e,
            nth_error (projection r) (i - 1) = Some e'
            /\ nth_error (projection r) i = Some e
            /\ amount e == amount e' + ms).
Proof.
  pose proof (periods_pos s t) as Hpos.
  eexists. split; [apply calculate_savings_projection_eq |].
  cbn [months_to_target projection].
  split; [lia |].
  split; [now apply projection_length |].
  split; [| split].
  - intros i Hi. eexists. split; [now apply projection_nth |]. reflexivity.
  - eexists. split; [apply projection_nth; lia |]. reflexivity.
  - intros i Hi. eexists. eexists.
    split; [apply projection_nth; lia |].
    split; [now apply projection_nth |].
    cbn [amount]. destruct i as [| i]; [lia |].
    replace (S i - 1)%nat with i by lia.
    reflexivity.
Qed.

(** C3 fails as stated: on floating-point amounts the one product that
    gives [total_saved] and the repeated additions that give the
    timeline round differently.  With a contribution of [1/10] from
    January to November, ten months, [total_saved] is [1] and the amount
    of the last entry, the one at index [10], is below it. *)
Lemma C3_total_saved_counterexample :
  exists r e,
    Binary64.calculate_savings_projection
      (Binary64.of_int 100000)
      (PrimFloat.div (Binary64.of_int 1) (Binary64.of_int 10))
      (mkdate 2024 1 1) (mkdate 2024 11 1) = Py.Ret r
    /\ Binary64.months_to_target r = 10%Z
    /\ List.length (Binary64.projection r) = 11%nat
    /\ nth_error (Binary64.projection r) 10 = Some e
    /\ Binary64.month e = 10%Z
    /\ Binary64.total_saved r
       = PrimFloat.mul
           (PrimFloat.div (Binary64.of_int 1) (Binary64.of_int 10))
           (Binary64.of_int 10)
    /\ PrimFloat.eqb (Binary64.total_saved r) (Binary64.of_int 1) = true
    /\ PrimFloat.eqb (Binary64.amount e) (Binary64.total_saved r) = false
    /\ PrimFloat.ltb (Binary64.amount e) (Binary64.total_saved r) = true.
Proof.
  eexists. eexists.
  split; [vm_compute; reflexivity |].
  repeat split; vm_compute; reflexivity.
Qed.

(** C3, amended.  In exact arithmetic, which is the arithmetic of the
    code whenever the amounts are integers: [total_saved] is the monthly
    contribution times the [months_to_target] that is returned, the
    value after the clamp (the whole-month difference of the dates, or
    [1] when that is not positive, so never below [1]); and it equals
    the cumulative amount of the last entry of the timeline, the one at
    index [months_to_target]. *)
Theorem C3_total_saved ta ms s t :
  exists r,
    calculate_savings_projection ta ms s t = Py.Ret r
    /\ months_to_target r
       = Z.max 1 ((year t - year s) * 12
                  + (datetime.month t - datetime.month s))
    /\ (1 <= months_to_target r)%Z
    /\ total_saved r == ms * inject_Z (months_to_target r)
    /\ exists e,
         nth_error (projection r) (Z.to_nat (months_to_target r)) = Some e
         /\ length (projection r) = S (Z.to_nat (months_to_target r))
         /\ month e = months_to_target r
         /\ amount e == total_saved r.
Proof.
  pose proof (periods_pos s t) as Hpos.
  eexists. split; [apply calculate_savings_projection_eq |].
  cbn [months_to_target projection total_saved].
  split.
  { unfold periods. cbv zeta.
    destruct (Z.leb_spec
      ((year t - year s) * 12
       + (datetime.month t - datetime.month s)) 0); lia. }
  split; [lia |].
  split; [reflexivity |].
  eexists. split; [apply projection_nth; lia |].
  split; [now apply projection_length |].
  cbn [month amount]. split; [lia |].
  rewrite saved_after_closed, Z2Nat.id by lia. ring.
Qed.

(** C4.  [shortfall] is [max(0, target_amount - total_saved)]; it is
    never negative, and a surplus ([total_saved] at or above the target)
    gives a shortfall of [0]. *)
Theorem C4_shortfall ta ms s t :
  exists r,
    calculate_savings_projection ta ms s t = Py.Ret r
    /\ shortfall r == Qmax 0 (ta - total_saved r)
    /\ 0 <= shortfall r
    /\ (ta <= total_saved r -> shortfall r == 0)
    /\ (total_saved r < ta -> shortfall r == ta - total_saved r).
Proof.
  eexists. split; [apply calculate_savings_projection_eq |].
  cbn [shortfall total_saved].
  split; [now rewrite py_max_Qmax |].
  destruct (py_max_spec 0 (ta - ms * inject_Z (periods s t)))
    as [[H ->] | [H ->]].
  - split; [lra |]. split; [intros; lra | intros; reflexivity].
  - split; [lra |]. split; [intros; reflexivity | intros; lra].
Qed.

(** ** The success rate *)

Lemma ratio_nonneg a b : 0 <= a -> 0 < b -> 0 <= a / b * 100.
Proof.
  intros Ha Hb.
  apply Qmult_le_0_compat; [| lra].
  apply Qle_shift_div_l; [exact Hb | lra].
Qed.

(** The uncapped rate reaches 100 exactly when the saved total reaches
    the target. *)
Lemma ratio_full_iff a b : 0 < b -> (100 <= a / b * 100 <-> b <= a).
Proof.
  intros Hb. split; intros H.
  - assert (H1 : 1 <= a / b) by lra.
    apply (Qmult_le_r _ _ b Hb) in H1.
    assert (E : a / b * b == a) by (field; lra).
    rewrite E in H1. lra.
  - assert (H1 : 1 <= a / b) by (apply Qle_shift_div_l; [exact Hb | lra]).
    lra.
Qed.

Lemma success_rate_bounds ta ms m :
  0 <= ta -> 0 <= ms -> (0 < m)%Z ->
  0 <= (if Py.gt ta 0 then Py.min 100 (ms * inject_Z m / ta * 100) else 0)
       <= 100.
Proof.
  intros Hta Hms Hm.
  destruct (Py.gt ta 0) eqn:E; [| lra].
  apply gt_true_iff in E.
  assert (H0 : 0 <= ms * inject_Z m / ta * 100).
  { apply ratio_nonneg; [| exact E].
    apply Qmult_le_0_compat; [exact Hms |].
    apply Qlt_le_weak. now apply inject_Z_pos. }
  destruct (py_min_spec 100 (ms * inject_Z m / ta * 100))
    as [[H ->] | [H ->]]; lra.
Qed.

(** C5.  With a non-negative target and a non-negative contribution,
    [success_rate] is [min(100, total_saved / target_amount * 100)] when
    the target is positive and [0] when the target is [0]; in both cases
    it lies between [0] and [100], ends included. *)
Theorem C5_success_rate ta ms s t :
  0 <= ta -> 0 <= ms ->
  exists r,
    calculate_savings_projection ta ms s t = Py.Ret r
    /\ (0 < ta -> success_rate r == Qmin 100 (total_saved r / ta * 100))
    /\ (ta == 0 -> success_rate r == 0)
    /\ 0 <= success_rate r <= 100.
Proof.
  intros Hta Hms.
  eexists. split; [apply calculate_savings_projection_eq |].
  cbn [success_rate total_saved].
  split; [| split].
  - intros Hpos. apply gt_true_iff in Hpos. rewrite Hpos.
    now rewrite py_min_Qmin.
  - intros Hz.
    destruct (Py.gt ta 0) eqn:E; [| reflexivity].
    apply gt_true_iff in E. lra.
  - apply success_rate_bounds; [exact Hta | exact Hms | apply periods_pos].
Qed.

Lemma C5_success_rate_witness :
  0 <= 150000 /\ 0 <= 8000
  /\ exists r,
       calculate_savings_projection 150000 8000
         (mkdate 2024 1 1) (mkdate 2024 7 1) = Py.Ret r
       /\ (0 < 150000 ->
           success_rate r == Qmin 100 (total_saved r / 150000 * 100))
       /\ (150000 == 0 -> success_rate r == 0)
       /\ 0 <= success_rate r <= 100.
Proof.
  split; [unfold Qle; simpl; lia |].
  split; [unfold Qle; simpl; lia |].
  apply (C5_success_rate 150000 8000 (mkdate 2024 1 1) (mkdate 2024 7 1));
    unfold Qle; simpl; lia.
Defined.

(** ** Dates in the wrong order *)

(** A target date not after the start date has a non-positive
    whole-month difference, so the period count is clamped to [1]. *)
Lemma periods_le s t :
  datetime.valid s = true -> datetime.valid t = true ->
  datetime.le t s = true -> periods s t = 1%Z.
Proof.
  unfold datetime.valid, datetime.le, periods. cbv zeta.
  intros Vs Vt Hle.
  repeat rewrite andb_true_iff in Vs, Vt.
  destruct Vs as [[[[[_ _] Hs1] Hs12] _] _].
  destruct Vt as [[[[[_ _] Ht1] Ht12] _] _].
  apply Z.leb_le in Hs1, Hs12, Ht1, Ht12.
  assert (H : ((year t - year s) * 12
               + (datetime.month t - datetime.month s) <= 0)%Z).
  { apply orb_true_iff in Hle. destruct Hle as [Hy | Hle].
    - apply Z.ltb_lt in Hy. lia.
    - apply andb_true_iff in Hle. destruct Hle as [Hy Hm].
      apply Z.eqb_eq in Hy.
      apply orb_true_iff in Hm. destruct Hm as [Hm | Hm].
      + apply Z.ltb_lt in Hm. lia.
      + apply andb_true_iff in Hm. destruct Hm as [Hm _].
        apply Z.eqb_eq in Hm. lia. }
  apply Z.leb_le in H. now rewrite H.
Qed.

(** C6.  When the target date is earlier than or equal to the start date
    (as full calendar dates, day included), the function does not fail:
    it returns [months_to_target = 1] and a one-period projection, whose
    timeline is entry [0] at amount [0] followed by entry [1] at one
    contribution, with the ideal pace going from [0] to the target. *)
Theorem C6_target_not_after_start ta ms s t :
  datetime.valid s = true -> datetime.valid t = true ->
  datetime.le t s = true ->
  exists r,
    calculate_savings_projection ta ms s t = Py.Ret r
    /\ months_to_target r = 1%Z
    /\ total_saved r == ms
    /\ required_monthly r == ta
    /\ exists e0 e1,
         projection r = [e0; e1]
         /\ month e0 = 0%Z /\ amount e0 == 0 /\ target_line e0 == 0
         /\ month e1 = 1%Z /\ amount e1 == ms /\ target_line e1 == ta.
Proof.
  intros Vs Vt Hle.
  eexists. split; [apply calculate_savings_projection_eq |].
  rewrite (periods_le s t Vs Vt Hle).
  cbn [months_to_target total_saved required_monthly projection].
  split; [reflexivity |].
  split; [ring |].
  split; [field |].
  eexists. eexists. split; [reflexivity |].
  cbn [month amount target_line].
  repeat split; try reflexivity; try ring; try field.
Qed.

Lemma C6_target_not_after_start_witness :
  datetime.valid (mkdate 2024 6 1) = true
  /\ datetime.valid (mkdate 2024 1 1) = true
  /\ datetime.le (mkdate 2024 1 1) (mkdate 2024 6 1) = true
  /\ exists r,
    calculate_savings_projection 50000 5000
      (mkdate 2024 6 1) (mkdate 2024 1 1) = Py.Ret r
    /\ months_to_target r = 1%Z
    /\ total_saved r == 5000
    /\ required_monthly r == 50000
    /\ exists e0 e1,
         projection r = [e0; e1]
         /\ month e0 = 0%Z /\ amount e0 == 0 /\ target_line e0 == 0
         /\ month e1 = 1%Z /\ amount e1 == 5000 /\ target_line e1 == 50000.
Proof.
  repeat (split; [reflexivity |]).
  apply (C6_target_not_after_start 50000 5000
           (mkdate 2024 6 1) (mkdate 2024 1 1)); reflexivity.
Defined.

(** ** The ideal pace *)

(** C7.  [required_monthly] is [target_amount / months_to_target], so
    that [required_monthly * months_to_target] is the target exactly; the
    ideal-pace value of timeline entry [i] is
    [(target_amount / months_to_target) * i], and at the final index
    [months_to_target] it is the target exactly. *)
Theorem C7_required_monthly_and_pace ta ms s t :
  exists r,
    calculate_savings_projection ta ms s t = Py.Ret r
    /\ required_monthly r == ta / inject_Z (months_to_target r)
    /\ required_monthly r * inject_Z (months_to_target r) == ta
    /\ (forall i e,
          nth_error (projection r) i = Some e ->
          month e = Z.of_nat i
          /\ target_line e
             == ta / inject_Z (months_to_target r) * inject_Z (Z.of_nat i))
    /\ exists e,
         nth_error (projection r) (Z.to_nat (months_to_target r)) = Some e
         /\ target_line e == ta.
Proof.
  pose proof (periods_pos s t) as Hpos.
  pose proof (inject_Z_pos _ Hpos) as HQ.
  eexists. split; [apply calculate_savings_projection_eq |].
  cbn [months_to_target required_monthly projection].
  split; [reflexivity |].
  split; [field; lra |].
  split.
  - intros i e He.
    assert (Hi : (i < S (Z.to_nat (periods s t)))%nat).
    { rewrite <- (projection_length ta ms) by exact Hpos.
      apply nth_error_Some. congruence. }
    rewrite projection_nth in He by lia.
    injection He as <-. split; reflexivity.
  - eexists. split; [apply projection_nth; lia |].
    cbn [target_line]. rewrite Z2Nat.id by lia. field. lra.
Qed.

(** ** A zero or negative target *)

(** C8 fails as stated: with a zero target and a negative contribution
    the function returns a positive shortfall.  Here the target is [0],
    the contribution is [-1000] over three months, and the shortfall
    returned is [3000]. *)
Lemma C8_zero_target_counterexample :
  exists r,
    calculate_savings_projection 0 (-1000)
      (mkdate 2024 1 1) (mkdate 2024 4 1) = Py.Ret r
    /\ shortfall r == 3000
    /\ ~ shortfall r == 0.
Proof.
  eexists. split; [reflexivity |].
  split; [reflexivity | discriminate].
Qed.

(** C8, amended.  With a zero target and a non-negative contribution the
    function returns [success_rate = 0], [shortfall = 0] and
    [required_monthly = 0].  No division fails, for this or for any
    other input: the function never raises. *)
Theorem C8_zero_target ta ms s t :
  ta == 0 -> 0 <= ms ->
  (exists r,
     calculate_savings_projection ta ms s t = Py.Ret r
     /\ success_rate r == 0
     /\ shortfall r == 0
     /\ required_monthly r == 0)
  /\ (forall ta' ms' s' t' e,
        calculate_savings_projection ta' ms' s' t' <> Py.Raise e).
Proof.
  intros Hta Hms. split.
  - pose proof (periods_pos s t) as Hpos.
    pose proof (inject_Z_pos _ Hpos) as HQ.
    eexists. split; [apply calculate_savings_projection_eq |].
    cbn [success_rate shortfall required_monthly].
    split; [| split].
    + destruct (Py.gt ta 0) eqn:E; [| reflexivity].
      apply gt_true_iff in E. lra.
    + assert (H : 0 <= ms * inject_Z (periods s t)).
      { apply Qmult_le_0_compat; lra. }
      destruct (py_max_spec 0 (ta - ms * inject_Z (periods s t)))
        as [[H' ->] | [H' ->]]; lra.
    + rewrite Hta. field. lra.
  - intros ta' ms' s' t' e.
    rewrite calculate_savings_projection_eq. discriminate.
Qed.

Lemma C8_zero_target_witness :
  0 == 0 /\ 0 <= 1000
  /\ exists r,
       calculate_savings_projection 0 1000
         (mkdate 2024 1 1) (mkdate 2024 4 1) = Py.Ret r
       /\ success_rate r == 0
       /\ shortfall r == 0
       /\ required_monthly r == 0.
Proof.
  split; [reflexivity |].
  split; [unfold Qle; simpl; lia |].
  apply (C8_zero_target 0 1000 (mkdate 2024 1 1) (mkdate 2024 4 1));
    [reflexivity | unfold Qle; simpl; lia].
Defined.

(** C9.  With a target that is zero or negative the function returns
    [success_rate = 0] and raises no division error; a negative target
    takes the same branch of the guard [target_amount > 0] as a zero
    target, the one that does not divide. *)
Theorem C9_nonpositive_target ta ms s t :
  ta <= 0 ->
  Py.gt ta 0 = false
  /\ Py.gt 0 0 = false
  /\ exists r,
       calculate_savings_projection ta ms s t = Py.Ret r
       /\ success_rate r == 0.
Proof.
  intros Hta.
  assert (E : Py.gt ta 0 = false) by now apply gt_false_iff.
  split; [exact E |].
  split; [reflexivity |].
  eexists. split; [apply calculate_savings_projection_eq |].
  cbn [success_rate]. rewrite E. reflexivity.
Qed.

Lemma C9_nonpositive_target_witness :
  -5000 <= 0
  /\ exists r,
       calculate_savings_projection (-5000) 1000
         (mkdate 2024 1 1) (mkdate 2024 4 1) = Py.Ret r
       /\ success_rate r == 0.
Proof.
  split; [unfold Qle; simpl; lia |].
  apply (C9_nonpositive_target (-5000) 1000
           (mkdate 2024 1 1) (mkdate 2024 4 1)).
  unfold Qle; simpl; lia.
Defined.

(** ** Shortfall and success rate together *)

(** C10.  With a positive target and a non-negative contribution, the
    shortfall is [0] exactly when the success rate is [100]. *)
Theorem C10_shortfall_zero_iff_full ta ms s t :
  0 < ta -> 0 <= ms ->
  exists r,
    calculate_savings_projection ta ms s t = Py.Ret r
    /\ (shortfall r == 0 <-> success_rate r == 100).
Proof.
  intros Hta Hms.
  eexists. split; [apply calculate_savings_projection_eq |].
  cbn [shortfall success_rate].
  apply gt_true_iff in Hta as E. rewrite E.
  set (saved := ms * inject_Z (periods s t)).
  pose proof (ratio_full_iff saved ta Hta) as [Hfull1 Hfull2].
  destruct (py_max_spec 0 (ta - saved)) as [[Hmax ->] | [Hmax ->]];
  destruct (py_min_spec 100 (saved / ta * 100)) as [[Hmin ->] | [Hmin ->]].
  - split; intros H; lra.
  - assert (ta <= saved) by (apply Hfull1; exact Hmin). lra.
  - assert (100 <= saved / ta * 100) by (apply Hfull2; lra). lra.
  - split; intros; reflexivity.
Qed.

Lemma C10_shortfall_zero_iff_full_witness :
  0 < 100000 /\ 0 <= 10000
  /\ exists r,
       calculate_savings_projection 100000 10000
         (mkdate 2024 1 1) (mkdate 2024 11 1) = Py.Ret r
       /\ (shortfall r == 0 <-> success_rate r == 100).
Proof.
  split; [unfold Qlt; simpl; lia |].
  split; [unfold Qle; simpl; lia |].
  apply (C10_shortfall_zero_iff_full 100000 10000
           (mkdate 2024 1 1) (mkdate 2024 11 1));
    [unfold Qlt; simpl; lia | unfold Qle; simpl; lia].
Defined.

(** * Further properties of the page

    The rest of this file covers what the claims above leave out: more
    of [calculate_savings_projection], the panel that shows its result,
    the progress cards and the submission of a goal. *)

(** ** More arithmetic *)

Lemma div_le_iff a b m : 0 < m -> (a / m <= b <-> a <= b * m).
Proof.
  intros Hm. split; intros H.
  - apply (Qmult_le_r _ _ m Hm) in H.
    assert (E : a / m * m == a) by (field; lra).
    now rewrite E in H.
  - now apply Qle_shift_div_r.
Qed.

Lemma gt_scale k a : 0 < k -> Py.gt (k * a) 0 = Py.gt a 0.
Proof.
  intros Hk.
  destruct (Py.gt a 0) eqn:E.
  - apply gt_true_iff. apply gt_true_iff in E.
    now apply Qmult_lt_0_compat.
  - apply gt_false_iff. apply gt_false_iff in E.
    assert (H : 0 <= k * (- a)).
    { apply Qmult_le_0_compat; lra. }
    assert (E' : k * (- a) == - (k * a)) by ring.
    rewrite E' in H. lra.
Qed.

(** Every entry of the timeline, by its month index. *)
Lemma projection_In ta ms m e :
  (0 < m)%Z ->
  In e (timeline ta ms m (Py.range (m + 1)) 0) ->
  exists i,
    (i <= Z.to_nat m)%nat
    /\ e = {| month := Z.of_nat i;
              amount := saved_after ms 0 i;
              target_line := ta / inject_Z m * inject_Z (Z.of_nat i) |}.
Proof.
  intros Hm Hin.
  apply In_nth_error in Hin. destruct Hin as [i Hi].
  assert (Hlt : (i < S (Z.to_nat m))%nat).
  { rewrite <- (projection_length ta ms m Hm).
    apply nth_error_Some. congruence. }
  exists i. split; [lia |].
  rewrite projection_nth in Hi by lia.
  now injection Hi as <-.
Qed.

Lemma timeline_months ta ms m months :
  forall cur, map month (timeline ta ms m months cur) = months.
Proof.
  induction months as [| i months IH]; intros cur; simpl; [reflexivity |].
  now rewrite IH.
Qed.

(** ** More of [calculate_savings_projection] *)

(** X1.  Every entry of the timeline carries the contribution times its
    month index as cumulative amount: the savings curve is linear, with
    no interest and no compounding. *)
Theorem amount_is_linear ta ms s t :
  exists r,
    calculate_savings_projection ta ms s t = Py.Ret r
    /\ forall e, In e (projection r) -> amount e == ms * inject_Z (month e).
Proof.
  pose proof (periods_pos s t) as Hpos.
  eexists. split; [apply calculate_savings_projection_eq |].
  cbn [projection]. intros e He.
  apply projection_In in He; [| exact Hpos].
  destruct He as (i & _ & ->). cbn [amount month].
  rewrite saved_after_closed. ring.
Qed.

(** X2.  In exact arithmetic, the shortfall is zero exactly when the
    monthly contribution is at least [required_monthly].  (The code
    rounds the quotient that gives [required_monthly]; the statement is
    about the exact one.) *)
Theorem shortfall_zero_iff_required_met ta ms s t :
  exists r,
    calculate_savings_projection ta ms s t = Py.Ret r
    /\ (shortfall r == 0 <-> required_monthly r <= ms).
Proof.
  pose proof (inject_Z_pos _ (periods_pos s t)) as HQ.
  eexists. split; [apply calculate_savings_projection_eq |].
  cbn [shortfall required_monthly].
  rewrite (div_le_iff ta ms _ HQ).
  destruct (py_max_spec 0 (ta - ms * inject_Z (periods s t)))
    as [[H ->] | [H ->]]; split; intros; lra.
Qed.

(** X3.  For a positive target, the share of the target given by
    [success_rate] and the shortfall add up to the target:
    [success_rate / 100 * target_amount + shortfall = target_amount]. *)
Theorem rate_and_shortfall_cover_target ta ms s t :
  0 < ta ->
  exists r,
    calculate_savings_projection ta ms s t = Py.Ret r
    /\ success_rate r / 100 * ta + shortfall r == ta.
Proof.
  intros Hta.
  eexists. split; [apply calculate_savings_projection_eq |].
  cbn [shortfall success_rate].
  apply gt_true_iff in Hta as E. rewrite E.
  set (saved := ms * inject_Z (periods s t)).
  pose proof (ratio_full_iff saved ta Hta) as [Hfull1 Hfull2].
  destruct (py_max_spec 0 (ta - saved)) as [[Hmax ->] | [Hmax ->]];
  destruct (py_min_spec 100 (saved / ta * 100)) as [[Hmin ->] | [Hmin ->]].
  - field. lra.
  - assert (ta <= saved) by (apply Hfull1; exact Hmin). lra.
  - assert (100 <= saved / ta * 100) by (apply Hfull2; lra). lra.
  - field.
Qed.

Lemma rate_and_shortfall_cover_target_witness :
  0 < 150000
  /\ exists r,
       calculate_savings_projection 150000 8000
         (mkdate 2024 1 1) (mkdate 2024 7 1) = Py.Ret r
       /\ success_rate r / 100 * 150000 + shortfall r == 150000.
Proof.
  split; [unfold Qlt; simpl; lia |].
  apply (rate_and_shortfall_cover_target 150000 8000
           (mkdate 2024 1 1) (mkdate 2024 7 1)).
  unfold Qlt; simpl; lia.
Defined.

(** X4.  With a zero contribution nothing is ever saved: every entry of
    the timeline has amount [0], [total_saved] and [success_rate] are
    [0], and the shortfall is the whole target (or [0] for a target
    that is not positive). *)
Theorem zero_contribution ta ms s t :
  ms == 0 ->
  exists r,
    calculate_savings_projection ta ms s t = Py.Ret r
    /\ total_saved r == 0
    /\ success_rate r == 0
    /\ (0 <= ta -> shortfall r == ta)
    /\ (ta <= 0 -> shortfall r == 0)
    /\ forall e, In e (projection r) -> amount e == 0.
Proof.
  intros Hms.
  pose proof (periods_pos s t) as Hpos.
  eexists. split; [apply calculate_savings_projection_eq |].
  cbn [total_saved success_rate shortfall projection].
  assert (Hsaved : ms * inject_Z (periods s t) == 0)
    by (rewrite Hms; ring).
  split; [exact Hsaved |].
  split.
  { destruct (Py.gt ta 0) eqn:E; [| reflexivity].
    apply gt_true_iff in E.
    assert (Hv : ms * inject_Z (periods s t) / ta * 100 == 0)
      by (rewrite Hsaved; field; lra).
    destruct (py_min_spec 100 (ms * inject_Z (periods s t) / ta * 100))
      as [[H ->] | [H ->]]; lra. }
  destruct (py_max_spec 0 (ta - ms * inject_Z (periods s t)))
    as [[H ->] | [H ->]].
  - split; [intros; lra |]. split; [intros; lra |].
    intros e He. apply projection_In in He; [| exact Hpos].
    destruct He as (i & _ & ->). cbn [amount].
    rewrite saved_after_closed, Hms. ring.
  - split; [intros; lra |]. split; [intros; lra |].
    intros e He. apply projection_In in He; [| exact Hpos].
    destruct He as (i & _ & ->). cbn [amount].
    rewrite saved_after_closed, Hms. ring.
Qed.

Lemma zero_contribution_witness :
  0 == 0
  /\ exists r,
       calculate_savings_projection 50000 0
         (mkdate 2024 1 1) (mkdate 2024 4 1) = Py.Ret r
       /\ total_saved r == 0
       /\ success_rate r == 0
       /\ (0 <= 50000 -> shortfall r == 50000)
       /\ (50000 <= 0 -> shortfall r == 0)
       /\ forall e, In e (projection r) -> amount e == 0.
Proof.
  split; [reflexivity |].
  apply (zero_contribution 50000 0 (mkdate 2024 1 1) (mkdate 2024 4 1)).
  reflexivity.
Defined.

(** X5.  In exact arithmetic the unit of money does not matter:
    multiplying the target and the contribution by the same positive
    factor multiplies [total_saved], [shortfall] and [required_monthly]
    by that factor and leaves [months_to_target] and [success_rate]
    unchanged.  (With the rounded quotients of the code the scaled
    [required_monthly] can differ in the last place.) *)
Theorem scaling_amounts k ta ms s t :
  0 < k ->
  exists r r',
    calculate_savings_projection ta ms s t = Py.Ret r
    /\ calculate_savings_projection (k * ta) (k * ms) s t = Py.Ret r'
    /\ months_to_target r' = months_to_target r
    /\ total_saved r' == k * total_saved r
    /\ shortfall r' == k * shortfall r
    /\ required_monthly r' == k * required_monthly r
    /\ success_rate r' == success_rate r.
Proof.
  intros Hk.
  pose proof (inject_Z_pos _ (periods_pos s t)) as HQ.
  eexists. eexists.
  split; [apply calculate_savings_projection_eq |].
  split; [apply calculate_savings_projection_eq |].
  cbn [months_to_target total_saved shortfall required_monthly success_rate].
  set (m := inject_Z (periods s t)) in *.
  split; [reflexivity |].
  split; [ring |].
  split; [| split].
  - assert (E : k * ta - k * ms * m == k * (ta - ms * m)) by ring.
    assert (Hsign : 0 < k * (ta - ms * m) <-> 0 < ta - ms * m).
    { rewrite <- !gt_true_iff. now rewrite gt_scale. }
    destruct (py_max_spec 0 (k * ta - k * ms * m)) as [[H ->] | [H ->]];
    destruct (py_max_spec 0 (ta - ms * m)) as [[H' ->] | [H' ->]].
    + exact E.
    + rewrite E in H. apply Hsign in H. lra.
    + apply Hsign in H'. rewrite E in H. lra.
    + ring.
  - field. lra.
  - rewrite gt_scale by exact Hk.
    destruct (Py.gt ta 0) eqn:Eta; [| reflexivity].
    apply gt_true_iff in Eta.
    assert (E : k * ms * m / (k * ta) * 100 == ms * m / ta * 100)
      by (field; lra).
    destruct (py_min_spec 100 (k * ms * m / (k * ta) * 100))
      as [[H ->] | [H ->]];
    destruct (py_min_spec 100 (ms * m / ta * 100)) as [[H' ->] | [H' ->]];
    lra.
Qed.

Lemma scaling_amounts_witness :
  0 < 100
  /\ exists r r',
       calculate_savings_projection 1500 80
         (mkdate 2024 1 1) (mkdate 2024 7 1) = Py.Ret r
       /\ calculate_savings_projection (100 * 1500) (100 * 80)
            (mkdate 2024 1 1) (mkdate 2024 7 1) = Py.Ret r'
       /\ months_to_target r' = months_to_target r
       /\ total_saved r' == 100 * total_saved r
       /\ shortfall r' == 100 * shortfall r
       /\ required_monthly r' == 100 * required_monthly r
       /\ success_rate r' == success_rate r.
Proof.
  split; [unfold Qlt; simpl; lia |].
  apply (scaling_amounts 100 1500 80 (mkdate 2024 1 1) (mkdate 2024 7 1)).
  unfold Qlt; simpl; lia.
Defined.

(** X6.  Saving more never hurts: with the same target and dates, a
    larger contribution gives a [total_saved] and a [success_rate] at
    least as large and a [shortfall] at most as large. *)
Theorem monotone_in_contribution ta ms ms' s t :
  ms <= ms' ->
  exists r r',
    calculate_savings_projection ta ms s t = Py.Ret r
    /\ calculate_savings_projection ta ms' s t = Py.Ret r'
    /\ total_saved r <= total_saved r'
    /\ shortfall r' <= shortfall r
    /\ success_rate r <= success_rate r'.
Proof.
  intros Hle.
  pose proof (inject_Z_pos _ (periods_pos s t)) as HQ.
  eexists. eexists.
  split; [apply calculate_savings_projection_eq |].
  split; [apply calculate_savings_projection_eq |].
  cbn [total_saved shortfall success_rate].
  set (m := inject_Z (periods s t)) in *.
  assert (Hsaved : ms * m <= ms' * m).
  { apply Qmult_le_compat_r; lra. }
  split; [exact Hsaved |].
  split.
  - destruct (py_max_spec 0 (ta - ms' * m)) as [[H ->] | [H ->]];
    destruct (py_max_spec 0 (ta - ms * m)) as [[H' ->] | [H' ->]]; lra.
  - destruct (Py.gt ta 0) eqn:Eta; [| lra].
    apply gt_true_iff in Eta.
    assert (Hrate : ms * m / ta * 100 <= ms' * m / ta * 100).
    { apply Qmult_le_compat_r; [| lra].
      apply Qmult_le_compat_r; [exact Hsaved |].
      apply Qlt_le_weak. now apply Qinv_lt_0_compat. }
    destruct (py_min_spec 100 (ms * m / ta * 100)) as [[H ->] | [H ->]];
    destruct (py_min_spec 100 (ms' * m / ta * 100)) as [[H' ->] | [H' ->]];
    lra.
Qed.

Lemma monotone_in_contribution_witness :
  8000 <= 10000
  /\ exists r r',
       calculate_savings_projection 150000 8000
         (mkdate 2024 1 1) (mkdate 2024 7 1) = Py.Ret r
       /\ calculate_savings_projection 150000 10000
            (mkdate 2024 1 1) (mkdate 2024 7 1) = Py.Ret r'
       /\ total_saved r <= total_saved r'
       /\ shortfall r' <= shortfall r
       /\ success_rate r <= success_rate r'.
Proof.
  split; [unfold Qle; simpl; lia |].
  apply (monotone_in_contribution 150000 8000 10000
           (mkdate 2024 1 1) (mkdate 2024 7 1)).
  unfold Qle; simpl; lia.
Defined.

(** X7.  Periods add up along a way point: when [b] lies in a later
    calendar month than [a], and [c] in a later one than [b], the
    projection from [a] to [c] has the months of the two legs together,
    and, in exact arithmetic, its [total_saved] is the sum of theirs.
    (The months are integers.  The totals are products by the
    contribution: exact in the code for an integer contribution,
    rounded for a floating-point one.) *)
Theorem periods_add_up ta ms a b c :
  (0 < (year b - year a) * 12 + (datetime.month b - datetime.month a))%Z ->
  (0 < (year c - year b) * 12 + (datetime.month c - datetime.month b))%Z ->
  exists rab rbc rac,
    calculate_savings_projection ta ms a b = Py.Ret rab
    /\ calculate_savings_projection ta ms b c = Py.Ret rbc
    /\ calculate_savings_projection ta ms a c = Py.Ret rac
    /\ months_to_target rac
       = (months_to_target rab + months_to_target rbc)%Z
    /\ total_saved rac == total_saved rab + total_saved rbc.
Proof.
  intros Hab Hbc.
  eexists. eexists. eexists.
  split; [apply calculate_savings_projection_eq |].
  split; [apply calculate_savings_projection_eq |].
  split; [apply calculate_savings_projection_eq |].
  cbn [months_to_target total_saved].
  assert (E : periods a c = (periods a b + periods b c)%Z).
  { unfold periods. cbv zeta.
    repeat match goal with
           | |- context [(?x <=? 0)%Z] => destruct (Z.leb_spec x 0)
           end; lia. }
  split; [exact E |].
  rewrite E, inject_Z_plus. ring.
Qed.

Lemma periods_add_up_witness :
  exists rab rbc rac,
    calculate_savings_projection 150000 8000
      (mkdate 2024 1 15) (mkdate 2024 7 1) = Py.Ret rab
    /\ calculate_savings_projection 150000 8000
         (mkdate 2024 7 1) (mkdate 2025 3 31) = Py.Ret rbc
    /\ calculate_savings_projection 150000 8000
         (mkdate 2024 1 15) (mkdate 2025 3 31) = Py.Ret rac
    /\ months_to_target rac
       = (months_to_target rab + months_to_target rbc)%Z
    /\ total_saved rac == total_saved rab + total_saved rbc.
Proof.
  apply (periods_add_up 150000 8000
           (mkdate 2024 1 15) (mkdate 2024 7 1) (mkdate 2025 3 31));
    reflexivity.
Defined.

(** X8.  The projection has a single period exactly when the target
    month is at most one calendar month after the start month: a target
    in the past, in the same month and in the next month all give
    [months_to_target = 1]. *)
Theorem one_period_iff ta ms s t :
  exists r,
    calculate_savings_projection ta ms s t = Py.Ret r
    /\ (months_to_target r = 1%Z
        <-> ((year t - year s) * 12
             + (datetime.month t - datetime.month s) <= 1)%Z).
Proof.
  eexists. split; [apply calculate_savings_projection_eq |].
  cbn [months_to_target]. unfold periods. cbv zeta.
  destruct (Z.leb_spec
    ((year t - year s) * 12 + (datetime.month t - datetime.month s)) 0);
    lia.
Qed.

(** X9.  In exact arithmetic, at every entry of the timeline the
    distance between the savings and the ideal pace is the month index
    times the distance between the contribution and [required_monthly]:
    the savings curve stays on one side of the ideal pace.  (The code
    rounds the quotient in the ideal pace, so there the two sides can
    differ in the last place.) *)
Theorem gap_to_ideal_pace ta ms s t :
  exists r,
    calculate_savings_projection ta ms s t = Py.Ret r
    /\ forall e, In e (projection r) ->
         amount e - target_line e
         == inject_Z (month e) * (ms - required_monthly r).
Proof.
  pose proof (periods_pos s t) as Hpos.
  eexists. split; [apply calculate_savings_projection_eq |].
  cbn [projection required_monthly]. intros e He.
  apply projection_In in He; [| exact Hpos].
  destruct He as (i & _ & ->). cbn [amount month target_line].
  rewrite saved_after_closed. ring.
Qed.

(** X10.  Amounts are not validated: in exact arithmetic, for a
    positive target a negative contribution gives a negative
    [success_rate] and a [shortfall] above the target.  (On
    floating-point amounts of very different size the two strict
    inequalities can round to equalities.) *)
Theorem negative_contribution ta ms s t :
  0 < ta -> ms < 0 ->
  exists r,
    calculate_savings_projection ta ms s t = Py.Ret r
    /\ success_rate r < 0
    /\ ta < shortfall r.
Proof.
  intros Hta Hms.
  pose proof (inject_Z_pos _ (periods_pos s t)) as HQ.
  eexists. split; [apply calculate_savings_projection_eq |].
  cbn [success_rate shortfall].
  set (m := inject_Z (periods s t)) in *.
  assert (Hsaved : ms * m < 0).
  { assert (H : 0 < (- ms) * m) by (apply Qmult_lt_0_compat; lra).
    assert (E : (- ms) * m == - (ms * m)) by ring.
    rewrite E in H. lra. }
  apply gt_true_iff in Hta as E. rewrite E.
  split.
  - assert (Hv : ms * m / ta * 100 < 0).
    { assert (H : 0 < (- (ms * m)) / ta * 100).
      { apply Qmult_lt_0_compat; [| lra].
        apply Qlt_shift_div_l; [exact Hta | lra]. }
      assert (E' : (- (ms * m)) / ta * 100 == - (ms * m / ta * 100))
        by (field; lra).
      rewrite E' in H. lra. }
    destruct (py_min_spec 100 (ms * m / ta * 100)) as [[H ->] | [H ->]];
      lra.
  - destruct (py_max_spec 0 (ta - ms * m)) as [[H ->] | [H ->]]; lra.
Qed.

Lemma negative_contribution_witness :
  0 < 50000 /\ -1000 < 0
  /\ exists r,
       calculate_savings_projection 50000 (-1000)
         (mkdate 2024 1 1) (mkdate 2024 4 1) = Py.Ret r
       /\ success_rate r < 0
       /\ 50000 < shortfall r.
Proof.
  split; [unfold Qlt; simpl; lia |].
  split; [unfold Qlt; simpl; lia |].
  apply (negative_contribution 50000 (-1000)
           (mkdate 2024 1 1) (mkdate 2024 4 1));
    unfold Qlt; simpl; lia.
Defined.

(** ** The projection panel *)

Lemma combine_map_same {A B C : Type} (f : A -> B) (g : A -> C) l :
  combine (map f l) (map g l) = map (fun x => (f x, g x)) l.
Proof. induction l as [| x l IH]; simpl; [reflexivity | now rewrite IH]. Qed.

Lemma combine_map_repeat {A B C : Type} (f : A -> B) (c : C) l :
  combine (map f l) (repeat c (List.length l)) = map (fun x => (f x, c)) l.
Proof. induction l as [| x l IH]; simpl; [reflexivity | now rewrite IH]. Qed.

(** The panel that is shown when both amounts are positive. *)
Lemma projection_panel_eq ta ms today t :
  0 < ta -> 0 < ms ->
  Page.projection_panel ta ms today t
  = Py.Ret (Some
      {| Page.months_metric := periods today t;
         Page.total_saved_metric := ms * inject_Z (periods today t);
         Page.success_rate_metric :=
           Py.min 100 (ms * inject_Z (periods today t) / ta * 100);
         Page.shortfall_label :=
           if Py.gt (Py.max 0 (ta - ms * inject_Z (periods today t))) 0
           then Page.Shortfall else Page.Surplus;
         Page.shortfall_metric :=
           Py.max 0 (ta - ms * inject_Z (periods today t));
         Page.savings_trace :=
           map (fun e => (month e, amount e))
             (timeline ta ms (periods today t)
                (Py.range (periods today t + 1)) 0);
         Page.target_trace :=
           map (fun e => (month e, ta))
             (timeline ta ms (periods today t)
                (Py.range (periods today t + 1)) 0) |}).
Proof.
  intros Hta Hms. unfold Page.projection_panel.
  apply gt_true_iff in Hta as Eta. apply gt_true_iff in Hms as Ems.
  rewrite Eta, Ems. cbn [andb].
  rewrite calculate_savings_projection_eq. cbn [Py.bind].
  cbn [months_to_target total_saved success_rate shortfall projection].
  rewrite Eta, combine_map_same, combine_map_repeat. reflexivity.
Qed.

(** X11.  The panel is shown exactly when the target and the
    contribution are both positive, and preparing it never fails.  When
    it is shown, the success rate is above [0] and at most [100]; the
    fourth metric is labelled "Surplus" exactly when the success rate
    is [100], and then the amount under it is [0]; otherwise it is
    labelled "Shortfall" over the positive amount still missing. *)
Theorem panel_shortfall_label ta ms today t :
  exists shown,
    Page.projection_panel ta ms today t = Py.Ret shown
    /\ (shown = None <-> ta <= 0 \/ ms <= 0)
    /\ forall panel, shown = Some panel ->
         0 < Page.success_rate_metric panel <= 100
         /\ (Page.shortfall_label panel = Page.Surplus
             <-> Page.success_rate_metric panel == 100)
         /\ (Page.shortfall_label panel = Page.Surplus ->
             Page.shortfall_metric panel == 0)
         /\ (Page.shortfall_label panel = Page.Shortfall ->
             0 < Page.shortfall_metric panel
             /\ Page.shortfall_metric panel
                == ta - Page.total_saved_metric panel).
Proof.
  destruct (Py.gt ta 0 && Py.gt ms 0) eqn:Guard.
  - apply andb_true_iff in Guard. destruct Guard as [Eta Ems].
    apply gt_true_iff in Eta, Ems.
    pose proof (inject_Z_pos _ (periods_pos today t)) as HQ.
    eexists. split; [now apply projection_panel_eq |].
    split; [split; [discriminate | intros [H | H]; lra] |].
    intros panel [= <-].
    cbn [Page.success_rate_metric Page.shortfall_label
         Page.shortfall_metric Page.total_saved_metric].
    set (saved := ms * inject_Z (periods today t)).
    assert (Hsaved : 0 < saved) by (now apply Qmult_lt_0_compat).
    assert (Hrate : 0 < saved / ta * 100).
    { apply Qmult_lt_0_compat; [| lra].
      apply Qlt_shift_div_l; [exact Eta | lra]. }
    pose proof (ratio_full_iff saved ta Eta) as [Hfull1 Hfull2].
    destruct (py_max_spec 0 (ta - saved)) as [[Hmax ->] | [Hmax ->]];
    destruct (py_min_spec 100 (saved / ta * 100)) as [[Hmin ->] | [Hmin ->]].
    + apply gt_true_iff in Hmax as ->.
      repeat split; try lra; try discriminate; intros; lra.
    + assert (ta <= saved) by (apply Hfull1; exact Hmin). lra.
    + assert (100 <= saved / ta * 100) by (apply Hfull2; lra). lra.
    + replace (Py.gt 0 0) with false by reflexivity.
      repeat split; try lra; try discriminate; intros; reflexivity.
  - exists None. split.
    + unfold Page.projection_panel. now rewrite Guard.
    + split; [| discriminate].
      split; [intros _ | reflexivity].
      apply andb_false_iff in Guard.
      destruct Guard as [E | E]; apply gt_false_iff in E; auto.
Qed.

(** X12.  The chart of a shown panel: both traces have one point for
    each month index from [0] to the number of months, in order; the
    target trace is flat at the target amount; the savings trace is the
    contribution times the month index, and its last point, at the
    last month, is the total saved of the second metric. *)
Theorem panel_chart ta ms today t :
  0 < ta -> 0 < ms ->
  exists panel,
    Page.projection_panel ta ms today t = Py.Ret (Some panel)
    /\ map fst (Page.savings_trace panel)
       = Py.range (Page.months_metric panel + 1)
    /\ map fst (Page.target_trace panel)
       = Py.range (Page.months_metric panel + 1)
    /\ (forall x y, In (x, y) (Page.target_trace panel) -> y = ta)
    /\ (forall x y, In (x, y) (Page.savings_trace panel) ->
          y == ms * inject_Z x)
    /\ exists y,
         nth_error (Page.savings_trace panel)
           (Z.to_nat (Page.months_metric panel))
         = Some (Page.months_metric panel, y)
         /\ y == Page.total_saved_metric panel.
Proof.
  intros Hta Hms.
  pose proof (periods_pos today t) as Hpos.
  eexists. split; [now apply projection_panel_eq |].
  cbn [Page.savings_trace Page.target_trace Page.months_metric
       Page.total_saved_metric].
  split; [| split; [| split; [| split]]].
  - rewrite map_map. cbn [fst]. apply timeline_months.
  - rewrite map_map. cbn [fst]. apply timeline_months.
  - intros x y Hin. apply in_map_iff in Hin.
    destruct Hin as (e & [= _ <-] & _). reflexivity.
  - intros x y Hin. apply in_map_iff in Hin.
    destruct Hin as (e & [= <- <-] & He).
    apply projection_In in He; [| exact Hpos].
    destruct He as (i & _ & ->). cbn [amount month].
    rewrite saved_after_closed. ring.
  - exists (saved_after ms 0 (Z.to_nat (periods today t))). split.
    + erewrite map_nth_error
        by (apply projection_nth; [exact Hpos | apply Nat.le_refl]).
      cbn [month amount]. now rewrite Z2Nat.id by lia.
    + rewrite saved_after_closed, Z2Nat.id by lia. ring.
Qed.

Lemma panel_chart_witness :
  0 < 150000 /\ 0 < 8000
  /\ exists panel,
       Page.projection_panel 150000 8000
         (mkdate 2024 1 1) (mkdate 2024 7 1) = Py.Ret (Some panel)
       /\ map fst (Page.savings_trace panel)
          = Py.range (Page.months_metric panel + 1)
       /\ map fst (Page.target_trace panel)
          = Py.range (Page.months_metric panel + 1)
       /\ (forall x y, In (x, y) (Page.target_trace panel) -> y = 150000)
       /\ (forall x y, In (x, y) (Page.savings_trace panel) ->
             y == 8000 * inject_Z x)
       /\ exists y,
            nth_error (Page.savings_trace panel)
              (Z.to_nat (Page.months_metric panel))
            = Some (Page.months_metric panel, y)
            /\ y == Page.total_saved_metric panel.
Proof.
  split; [unfold Qlt; simpl; lia |].
  split; [unfold Qlt; simpl; lia |].
  apply (panel_chart 150000 8000 (mkdate 2024 1 1) (mkdate 2024 7 1));
    unfold Qlt; simpl; lia.
Defined.

(** ** The progress cards *)

Lemma inject_Z_zero_iff z : inject_Z z == 0 <-> z = 0%Z.
Proof. unfold Qeq. simpl. lia. Qed.

Lemma truediv_inject_ok a b :
  b <> 0%Z ->
  Py.truediv (inject_Z a) (inject_Z b) = Py.Ret (inject_Z a / inject_Z b).
Proof.
  intros Hb. apply truediv_ok. now rewrite inject_Z_zero_iff.
Qed.


Lemma displayable_iff g :
  Track.displayable g = true
  <-> Track.target g <> 0%Z
      /\ 0 <= inject_Z (Track.current g) / inject_Z (Track.target g) <= 1.
Proof.
  unfold Track.displayable.
  rewrite !andb_true_iff, negb_true_iff, !Qle_bool_iff, Z.eqb_neq.
  tauto.
Qed.

(** A positive target and a current amount between [0] and the target
    give a progress the bar accepts. *)
Lemma displayable_in_range g :
  (0 < Track.target g)%Z ->
  (0 <= Track.current g <= Track.target g)%Z ->
  Track.displayable g = true.
Proof.
  intros Ht Hc. apply displayable_iff. split; [lia |].
  pose proof (inject_Z_pos _ Ht) as HQ.
  assert (H0 : 0 <= inject_Z (Track.current g))
    by (unfold Qle; simpl; lia).
  assert (H1 : inject_Z (Track.current g) <= inject_Z (Track.target g))
    by (unfold Qle; simpl; lia).
  split.
  - apply Qle_shift_div_l; [exact HQ | lra].
  - apply Qle_shift_div_r; [exact HQ | lra].
Qed.

(** The card of a displayable goal. *)
Lemma goal_card_eq g :
  Track.displayable g = true ->
  Track.goal_card g
  = Py.Ret
      (let months_left :=
         if (Track.monthly g >? 0)%Z
            && (Track.target g - Track.current g >? 0)%Z
         then inject_Z (Track.target g - Track.current g)
              / inject_Z (Track.monthly g)
         else 0 in
       {| Track.progress :=
            inject_Z (Track.current g) / inject_Z (Track.target g);
          Track.remaining := (Track.target g - Track.current g)%Z;
          Track.months_left := months_left;
          Track.caption :=
            if Py.gt months_left 0
            then Track.MonthsLeft months_left else Track.GoalAchieved;
          Track.badge :=
            if String.eqb (Track.status g) "Completed"
            then Track.Completed else Track.InProgress |}).
Proof.
  intros Hd. apply displayable_iff in Hd. destruct Hd as [Ht [H0 H1]].
  unfold Track.goal_card.
  rewrite truediv_inject_ok by exact Ht. cbn [Py.bind].
  unfold Track.st_progress.
  apply Qle_bool_iff in H0, H1. rewrite H0, H1. cbn [andb Py.bind].
  destruct (Z.gtb_spec (Track.monthly g) 0) as [Hm | Hm];
    cbn [andb]; [| reflexivity].
  destruct (Track.target g - Track.current g >? 0)%Z; [| reflexivity].
  rewrite truediv_inject_ok by lia. reflexivity.
Qed.





(** X15.  When every goal has a positive target and a current amount
    between [0] and the target, the tab fails on none of them and makes
    one card for each, and every progress value handed to the progress
    bar lies between [0] and [1].  The goals listed in the page are
    such goals. *)
Theorem track_progress_in_range goals :
  Forall (fun g => (0 < Track.target g)%Z
                   /\ (0 <= Track.current g <= Track.target g)%Z) goals ->
  exists cards,
    Track.track_progress goals = Py.Ret cards
    /\ List.length cards = List.length goals
    /\ Forall (fun card => 0 <= Track.progress card <= 1) cards.
Proof.
  induction 1 as [| g goals [Ht Hc] _ IH]; cbn [Track.track_progress].
  - exists []. repeat split; constructor.
  - destruct IH as (cards & -> & Hlen & Hall).
    pose proof (displayable_in_range g Ht Hc) as Hd.
    rewrite goal_card_eq by exact Hd. cbn [Py.bind].
    eexists. split; [reflexivity |].
    split; [cbn [List.length]; now rewrite Hlen |].
    constructor; [| exact Hall].
    cbv zeta. cbn [Track.progress].
    now apply displayable_iff in Hd.
Qed.

Lemma track_progress_in_range_witness :
  exists cards,
    Track.track_progress Track.sample_goals = Py.Ret cards
    /\ List.length cards = List.length Track.sample_goals
    /\ Forall (fun card => 0 <= Track.progress card <= 1) cards.
Proof.
  apply (track_progress_in_range Track.sample_goals).
  repeat constructor; simpl; lia.
Defined.

(** ** Submitting a goal *)

Section SubmitFacts.

Variable post : string -> Submit.json -> Z -> Submit.outcome Submit.Response.
Variable goal_data : Submit.json.

Let sent : Submit.outcome Submit.Response :=
  post (Submit.API_BASE_URL ++ "/savings/goal")%string goal_data 30%Z.

(** The result of [create_savings_goal], by what the network did. *)
Lemma create_savings_goal_eq :
  Submit.create_savings_goal post goal_data
  = Submit.Returns
      match sent with
      | Submit.Returns response =>
          if (Submit.status_code response =? 200)%Z
          then match Submit.body response with
               | Some v => v
               | None => Submit.JNull
               end
          else Submit.JNull
      | Submit.Raises _ => Submit.JNull
      end.
Proof.
  unfold Submit.create_savings_goal. fold sent.
  destruct sent as [response | e]; cbn [Submit.bind Submit.try_except];
    [| reflexivity].
  destruct (Submit.status_code response =? 200)%Z; [| reflexivity].
  unfold Submit.response_json.
  destruct (Submit.body response); reflexivity.
Qed.

(** X16.  [create_savings_goal] never raises, whatever the network
    does.  It returns the decoded body of the response when the status
    code is 200 and the body decodes, and [None] in every other case: a
    failed request, another status code, a body that is not JSON. *)
Theorem create_savings_goal_total :
  exists result,
    Submit.create_savings_goal post goal_data = Submit.Returns result
    /\ (forall response v,
          post (Submit.API_BASE_URL ++ "/savings/goal")%string
               goal_data 30%Z
          = Submit.Returns response ->
          Submit.status_code response = 200%Z ->
          Submit.body response = Some v ->
          result = v)
    /\ (result <> Submit.JNull ->
        exists response,
          post (Submit.API_BASE_URL ++ "/savings/goal")%string
               goal_data 30%Z
          = Submit.Returns response
          /\ Submit.status_code response = 200%Z
          /\ Submit.body response = Some result).
Proof.
  eexists. split; [apply create_savings_goal_eq |].
  fold sent. split.
  - intros response v -> Hs ->. now rewrite Hs.
  - destruct sent as [response | e]; [| intros H; now elim H].
    destruct (Z.eqb_spec (Submit.status_code response) 200) as [Hs | Hs];
      [| intros H; now elim H].
    destruct (Submit.body response) as [v |] eqn:Hb;
      [| intros H; now elim H].
    intros _. exists response. repeat split; assumption.
Qed.

(** X17.  The page reports that the goal was created exactly when the
    backend answered with status 200 and a JSON object whose
    ['success'] entry is true as a condition. *)
Theorem goal_created_iff :
  Submit.submit_feedback post goal_data
  = Submit.Returns Submit.GoalCreated
  <-> exists response items,
        post (Submit.API_BASE_URL ++ "/savings/goal")%string
             goal_data 30%Z
        = Submit.Returns response
        /\ Submit.status_code response = 200%Z
        /\ Submit.body response = Some (Submit.JDict items)
        /\ Submit.truthy (Submit.dict_get items "success") = true.
Proof.
  unfold Submit.submit_feedback. rewrite create_savings_goal_eq.
  fold sent. cbn [Submit.bind].
  split.
  - destruct sent as [response | e]; [| discriminate].
    destruct (Z.eqb_spec (Submit.status_code response) 200) as [Hs | Hs];
      [| discriminate].
    destruct (Submit.body response) as [v |] eqn:Hb; [| discriminate].
    destruct v as [| b | q | str | elems | items].
    + discriminate.
    + destruct b; discriminate.
    + destruct (Submit.truthy (Submit.JNum q)) eqn:E;
        cbn [Submit.get Submit.bind]; [discriminate |].
      rewrite E. discriminate.
    + destruct (Submit.truthy (Submit.JStr str)) eqn:E;
        cbn [Submit.get Submit.bind]; [discriminate |].
      rewrite E. discriminate.
    + destruct elems; discriminate.
    + destruct items as [| kv items]; [discriminate |].
      cbn [Submit.truthy Submit.get Submit.bind].
      destruct (Submit.truthy (Submit.dict_get (kv :: items) "success"))
        eqn:E; [| discriminate].
      intros _. exists response, (kv :: items).
      repeat split; assumption.
  - intros (response & items & -> & Hs & Hb & Hok).
    rewrite Hs, Hb. cbn [Z.eqb Pos.eqb].
    destruct items as [| kv items]; [discriminate |].
    cbn [Submit.truthy Submit.get Submit.bind].
    now rewrite Hok.
Qed.

(** X18.  The only way the handler itself fails: the backend answers
    with status 200 and a JSON value that is true as a condition but is
    not an object (a non-empty list or string, a non-zero number,
    [true]).  The call of [.get] then raises [AttributeError]. *)
Theorem submit_feedback_raises_iff e :
  Submit.submit_feedback post goal_data = Submit.Raises e
  <-> e = Submit.AttributeError
      /\ exists response v,
           post (Submit.API_BASE_URL ++ "/savings/goal")%string
                goal_data 30%Z
           = Submit.Returns response
           /\ Submit.status_code response = 200%Z
           /\ Submit.body response = Some v
           /\ Submit.truthy v = true
           /\ forall items, v <> Submit.JDict items.
Proof.
  unfold Submit.submit_feedback. rewrite create_savings_goal_eq.
  fold sent. cbn [Submit.bind].
  split.
  - destruct sent as [response | e'] eqn:Hsent; [| discriminate].
    destruct (Z.eqb_spec (Submit.status_code response) 200) as [Hs | Hs];
      [| discriminate].
    destruct (Submit.body response) as [v |] eqn:Hb; [| discriminate].
    destruct (Submit.truthy v) eqn:Htruthy; [| discriminate].
    destruct v as [| b | q | str | items | items];
      cbn [Submit.get Submit.bind]; try discriminate;
      intros [= <-]; (split; [reflexivity |]);
      exists response; eexists;
      (repeat split; [exact Hs | exact Hb | exact Htruthy | discriminate]).
  - intros (-> & response & v & -> & Hs & Hb & Htruthy & Hnot).
    rewrite Hs, Hb. cbn [Z.eqb Pos.eqb]. rewrite Htruthy.
    destruct v as [| b | q | str | items | items];
      cbn [Submit.get Submit.bind]; try reflexivity.
    now elim (Hnot items).
Qed.

End SubmitFacts.
